(** * gaia-star-radius: the packaging manifest [setup.py]

    The repository's only source file is [setup.py].  It computes the list
    of installable scripts from the directory [bin/] and hands it, with the
    project metadata, to [setuptools.setup]:

<<
    scripts = glob.glob('bin/*')
    scripts = [s for s in scripts if '~' not in s]
    setup(name="gaia-star-radius", ..., scripts=scripts, version='0.1.0')
>>

    The manifest is embedded as Rocq functions of the directory tree below
    the current directory.  The Python library functions on the path of
    [glob.glob('bin/*')] ([os.path.split], [os.path.join], [fnmatch.filter],
    [os.scandir] and the helpers of the [glob] module) are embedded after
    CPython's POSIX sources, one Rocq function per Python function. *)

From Stdlib Require Import String Ascii List Bool Arith Lia.
From Equations Require Import Equations.
Import ListNotations.

Open Scope list_scope.
Open Scope string_scope.

(** ** Python [str] operations used by the manifest *)

Module Str.

(** [s.startswith(pre)]. *)
Fixpoint startswith (s pre : string) {struct pre} : bool :=
  match pre with
  | EmptyString => true
  | String c pre' =>
      match s with
      | EmptyString => false
      | String a s' => Ascii.eqb a c && startswith s' pre'
      end
  end.

(** [sub in s]: [sub] occurs in [s] as a contiguous substring. *)
Fixpoint contains (sub s : string) : bool :=
  if startswith s sub then true
  else match s with
       | EmptyString => false
       | String _ s' => contains sub s'
       end.

(** [s.endswith(suf)]. *)
Fixpoint endswith (s suf : string) : bool :=
  if String.eqb s suf then true
  else match s with
       | EmptyString => false
       | String _ s' => endswith s' suf
       end.

(** [s.rstrip(c)] for a single character [c]. *)
Fixpoint rstrip (c : ascii) (s : string) : string :=
  match s with
  | EmptyString => EmptyString
  | String a s' =>
      match rstrip c s' with
      | EmptyString => if Ascii.eqb a c then EmptyString else String a EmptyString
      | r => String a r
      end
  end.

(** [s == c * len(s)]: every character of [s] is [c]. *)
Fixpoint all_char (c : ascii) (s : string) : bool :=
  match s with
  | EmptyString => true
  | String a s' => Ascii.eqb a c && all_char c s'
  end.

(** [bool(s)]: a string is true when it is not empty. *)
Definition nonempty (s : string) : bool :=
  match s with EmptyString => false | String _ _ => true end.

End Str.

(** ** [os.path] (posixpath) *)

Module OsPath.

Definition sep : ascii := "/"%char.

(** [(p[:i], p[i:])] for [i = p.rfind('/') + 1]. *)
Fixpoint cut_last_sep (p : string) : string * string :=
  match p with
  | EmptyString => (EmptyString, EmptyString)
  | String c p' =>
      match cut_last_sep p' with
      | (EmptyString, _) =>
          if Ascii.eqb c sep then (String c EmptyString, p')
          else (EmptyString, String c p')
      | (h, t) => (String c h, t)
      end
  end.

(** [posixpath.split]: the head loses its trailing slashes unless it
    consists of slashes only. *)
Definition split (p : string) : string * string :=
  let (head, tail) := cut_last_sep p in
  let head :=
    if Str.nonempty head && negb (Str.all_char sep head)
    then Str.rstrip sep head else head in
  (head, tail).

(** [posixpath.join(a, b)]. *)
Definition join (a b : string) : string :=
  if Str.startswith b "/" then b
  else if negb (Str.nonempty a) || Str.endswith a "/" then a ++ b
  else a ++ "/" ++ b.

End OsPath.

(** ** The directory tree below the current directory *)

#[warnings="-register-all"]
Inductive node : Type :=
| File
| Dir (children : list (string * node)).

(** A directory is the list of its entries, in the order [os.scandir]
    reports them. *)
Definition directory : Type := list (string * node).

Inductive OSError : Type :=
| FileNotFoundError
| NotADirectoryError.

Module Fs.

Fixpoint lookup (name : string) (d : directory) : option node :=
  match d with
  | [] => None
  | (n, x) :: d' => if String.eqb n name then Some x else lookup name d'
  end.

(** The components of a path: the pieces between slashes. *)
Fixpoint components (p : string) : list string :=
  match p with
  | EmptyString => [EmptyString]
  | String c p' =>
      if Ascii.eqb c OsPath.sep then EmptyString :: components p'
      else match components p' with
           | [] => [String c EmptyString]
           | k :: ks => String c k :: ks
           end
  end.

(** Walk [comps] down from [cur]; empty components and [.] stay in place.
    The tree is rooted at the current directory, so the walk knows
    nothing above it: a [..] component is reported as not found. *)
Fixpoint walk (cur : node) (comps : list string) : OSError + node :=
  match comps with
  | [] => inr cur
  | k :: ks =>
      match cur with
      | File => inl NotADirectoryError
      | Dir d =>
          if String.eqb k "" || String.eqb k "." then walk cur ks
          else match lookup k d with
               | Some x => walk x ks
               | None => inl FileNotFoundError
               end
      end
  end.

(** Resolve a relative path from the current directory [cwd].  The empty
    path names nothing ([ENOENT]); absolute paths leave the tree. *)
Definition resolve (cwd : directory) (path : string) : OSError + node :=
  if negb (Str.nonempty path) || Str.startswith path "/"
  then inl FileNotFoundError
  else walk (Dir cwd) (components path).

(** [os.scandir(path)]: the entries of the directory, or [OSError]. *)
Definition scandir (cwd : directory) (path : string) : OSError + directory :=
  match resolve cwd path with
  | inl e => inl e
  | inr File => inl NotADirectoryError
  | inr (Dir d) => inr d
  end.

(** [os.path.lexists(path)]. *)
Definition lexists (cwd : directory) (path : string) : bool :=
  match resolve cwd path with inl _ => false | inr _ => true end.

(** [os.path.isdir(path)]. *)
Definition isdir (cwd : directory) (path : string) : bool :=
  match resolve cwd path with inr (Dir _) => true | _ => false end.

(** A file name as a directory can hold it: not empty, without a slash,
    and neither [.] nor [..], which [os.scandir] never reports. *)
Definition valid_name (n : string) : bool :=
  Str.nonempty n && negb (Str.contains "/" n)
  && negb (String.eqb n ".") && negb (String.eqb n "..").

Definition valid_names (d : directory) : bool :=
  forallb (fun e => valid_name (fst e)) d.

(** [entry.is_dir()] of a [DirEntry]. *)
Definition is_dir (x : node) : bool :=
  match x with Dir _ => true | File => false end.

End Fs.

(** ** [fnmatch] *)

Module Fnmatch.

(** [fnmatchcase(name, pat)] for patterns made of literal characters,
    [*] (any run of characters, also empty) and [?] (any one character).
    Bracket expressions are not embedded: the manifest's pattern has
    none. *)
Fixpoint fnmatchcase_rev (pat name : string) {struct pat} : bool :=
  match pat with
  | EmptyString => negb (Str.nonempty name)
  | String c pat' =>
      if Ascii.eqb c "*" then
        (fix star (n : string) : bool :=
           fnmatchcase_rev pat' n
           || match n with
              | EmptyString => false
              | String _ n' => star n'
              end) name
      else
        match name with
        | EmptyString => false
        | String a name' =>
            (Ascii.eqb c "?" || Ascii.eqb c a) && fnmatchcase_rev pat' name'
        end
  end.

Definition fnmatchcase (name pat : string) : bool := fnmatchcase_rev pat name.

(** [fnmatch.filter(names, pat)]; [os.path.normcase] is the identity on
    POSIX. *)
Definition filter (names : list string) (pat : string) : list string :=
  List.filter (fun name => fnmatchcase name pat) names.

End Fnmatch.

(** ** [glob] *)

Module Glob.

(** [has_magic(s)]: [s] has one of the characters [*], [?], [[]. *)
Definition has_magic (s : string) : bool :=
  Str.contains "*" s || Str.contains "?" s || Str.contains "[" s.

(** [_ishidden(path)]: [path[0] == '.'].  Python raises [IndexError] on
    the empty string; [glob] never passes one, as no directory entry and no
    basename that has magic is empty. *)
Definition _ishidden (path : string) : bool :=
  match path with
  | String c _ => Ascii.eqb c "."
  | EmptyString => false
  end.

(** [_iterdir(dirname, None, dironly)]: the names [os.scandir] yields, all
    of them or the directories only; an [OSError] of [os.scandir] is caught
    and ends the iteration. *)
Definition _iterdir (cwd : directory) (dirname : string) (dironly : bool)
  : list string :=
  let arg := if Str.nonempty dirname then dirname else "." in
  match Fs.scandir cwd arg with
  | inl _ => []
  | inr entries =>
      map fst
        (List.filter (fun e => negb dironly || Fs.is_dir (snd e)) entries)
  end.

Definition _listdir := _iterdir.

Definition _glob1 (cwd : directory) (dirname pattern : string)
  (dironly include_hidden : bool) : list string :=
  let names := _listdir cwd dirname dironly in
  let names :=
    if include_hidden || negb (_ishidden pattern)
    then List.filter (fun x => include_hidden || negb (_ishidden x)) names
    else names in
  Fnmatch.filter names pattern.

Definition _glob0 (cwd : directory) (dirname basename : string)
  (dironly include_hidden : bool) : list string :=
  if Str.nonempty basename then
    if Fs.lexists cwd (OsPath.join dirname basename) then [basename] else []
  else
    if Fs.isdir cwd dirname then [basename] else [].

(** [_iglob(pathname, None, None, False, dironly)]: the generator of
    [glob.glob], here with [recursive=False] and [include_hidden=False], the
    defaults [glob.glob('bin/*')] runs with; the branches for [**] are dead
    then.  It calls itself on the head of the path when that has magic. *)
Equations? _iglob (cwd : directory) (pathname : string) (dironly : bool)
  : list string by wf (String.length pathname) lt :=
_iglob cwd pathname dironly :=
  let dirname := fst (OsPath.split pathname) in
  let basename := snd (OsPath.split pathname) in
  if negb (has_magic pathname) then
    if Str.nonempty basename then
      if Fs.lexists cwd pathname then [pathname] else []
    else
      if Fs.isdir cwd dirname then [pathname] else []
  else if negb (Str.nonempty dirname) then
    _glob1 cwd "" basename dironly false
  else
    let dirs :=
      match string_dec dirname pathname with
      | left _ => [dirname]
      | right Hne =>
          if has_magic dirname then _iglob cwd dirname true else [dirname]
      end in
    let glob_in_dir := if has_magic basename then _glob1 else _glob0 in
    flat_map
      (fun d => map (OsPath.join d) (glob_in_dir cwd d basename dironly false))
      dirs.
Proof.
  (* The head [posixpath.split] returns is a prefix of the path, so it is
     shorter than the path unless it is the path. *)
  assert (forall a b : string,
             String.length (a ++ b) = String.length a + String.length b)
    as append_length by (intros a b; induction a; simpl; lia).
  assert (forall a b : string,
             String.length a = String.length (a ++ b) -> a ++ b = a)
    as append_same_length.
  { intros a b. rewrite append_length. intros H.
    destruct b; [|simpl in H; lia].
    clear H. induction a; simpl; congruence. }
  assert (forall s : string,
             String.length (Str.rstrip OsPath.sep s) <= String.length s)
    as rstrip_length.
  { intros s. induction s as [|a s IH]; simpl; [lia|].
    destruct (Str.rstrip OsPath.sep s);
      [destruct (Ascii.eqb a OsPath.sep)|]; simpl in *; lia. }
  assert (forall s : string,
             String.length (Str.rstrip OsPath.sep s) = String.length s ->
             Str.rstrip OsPath.sep s = s)
    as rstrip_fixed.
  { intros s. induction s as [|a s IH]; simpl; [reflexivity|].
    pose proof (rstrip_length s) as Hle.
    destruct (Str.rstrip OsPath.sep s) as [|b r] eqn:E.
    - destruct (Ascii.eqb a OsPath.sep); simpl in *; intros H; [lia|].
      destruct s; simpl in *; [reflexivity | lia].
    - simpl in *. intros H. f_equal. apply IH. lia. }
  assert (forall p : string,
             fst (OsPath.cut_last_sep p) ++ snd (OsPath.cut_last_sep p) = p)
    as cut_append.
  { intros p. induction p as [|c p IH]; simpl; [reflexivity|].
    destruct (OsPath.cut_last_sep p) as [h t]; simpl in *.
    destruct h; simpl in *; [|congruence].
    destruct (Ascii.eqb c OsPath.sep); simpl; congruence. }
  subst dirname basename. revert Hne. unfold OsPath.split.
  pose proof (cut_append pathname) as Happ.
  destruct (OsPath.cut_last_sep pathname) as [h t]; cbn [fst snd] in *.
  pose proof (append_length h t) as Hlen. rewrite Happ in Hlen.
  assert (String.length h = String.length pathname -> h = pathname) as Hfull.
  { intros E. rewrite <- Happ. symmetry. apply append_same_length.
    rewrite Happ. exact E. }
  destruct (Str.nonempty h && negb (Str.all_char OsPath.sep h));
    cbn [fst snd]; intros Hne.
  - pose proof (rstrip_length h) as Hle.
    destruct (Nat.eq_dec (String.length (Str.rstrip OsPath.sep h))
                (String.length pathname)) as [E|E]; [exfalso | lia].
    apply Hne. rewrite rstrip_fixed by lia. apply Hfull. lia.
  - destruct (Nat.eq_dec (String.length h) (String.length pathname)) as [E|E];
      [exfalso; auto | lia].
Qed.

(** [glob.glob(pathname)]. *)
Definition glob (cwd : directory) (pathname : string) : list string :=
  _iglob cwd pathname false.

End Glob.

(** ** [setuptools.setup] *)

Module Setuptools.

(** The attributes of the distribution that the manifest declares. *)
Record Distribution : Type := {
  name : string;
  author : string;
  url : string;
  description : string;
  scripts : list string;
  version : string
}.

(** [setup] with keyword arguments records the keyword arguments as the attributes of the
    distribution.  The commands it runs afterwards (build, install, sdist)
    are setuptools' own and are not part of the manifest. *)
Definition setup (name author url description : string)
  (scripts : list string) (version : string) : Distribution :=
  {| name := name; author := author; url := url; description := description;
     scripts := scripts; version := version |}.

End Setuptools.

(** ** [setup.py] *)

(** A list comprehension [[x for x in xs if cond(x)]] runs as a loop that
    appends to a fresh list. *)
Fixpoint comprehension_loop {A : Type} (cond : A -> bool)
  (xs result : list A) : list A :=
  match xs with
  | [] => result
  | x :: xs' =>
      comprehension_loop cond xs' (if cond x then (result ++ [x])%list else result)
  end.

Definition comprehension {A : Type} (cond : A -> bool) (xs : list A) : list A :=
  comprehension_loop cond xs [].

(** Line 4: [scripts = glob.glob('bin/*')]. *)
Definition scripts_collected (cwd : directory) : list string :=
  Glob.glob cwd "bin/*".

(** Line 5: [scripts = [s for s in scripts if '~' not in s]]. *)
Definition scripts_filtered (scripts : list string) : list string :=
  comprehension (fun s => negb (Str.contains "~" s)) scripts.

(** The value of [scripts] when [setup] is called. *)
Definition scripts (cwd : directory) : list string :=
  scripts_filtered (scripts_collected cwd).

(** Lines 8 to 18: the call of [setup]. *)
Definition setup_py (cwd : directory) : Setuptools.Distribution :=
  Setuptools.setup
    "gaia-star-radius"
    "Erin Sheldon"
    "https://github.com/esheldon/gaia-star-radius"
    ("Code to measure the radius at which the "
     ++ "star profile reaches the noise level")
    (scripts cwd)
    "0.1.0".

(** The direct child entries of [bin/]: none when [bin] is missing or is
    not a directory. *)
Definition bin_entries (cwd : directory) : directory :=
  match Fs.lookup "bin" cwd with
  | Some (Dir d) => d
  | _ => []
  end.

(** ** Sample trees *)

(** A checkout with a script, editor backups, a hidden file and a
    subdirectory in [bin/]. *)
Definition sample_tree : directory :=
  [("setup.py", File);
   ("bin", Dir [("gaia-star-radius", File);
                ("gaia-star-radius~", File);
                (".gitignore", File);
                ("tools", Dir [("plot", File)])])].

(** [bin/] holds one hidden file only. *)
Definition hidden_tree : directory :=
  [("setup.py", File); ("bin", Dir [(".gitignore", File)])].

(** [bin/] is there and is empty. *)
Definition empty_bin_tree : directory :=
  [("setup.py", File); ("bin", Dir [])].

(** There is no [bin/]. *)
Definition no_bin_tree : directory :=
  [("setup.py", File)].

(** [bin] is a regular file. *)
Definition bin_file_tree : directory :=
  [("setup.py", File); ("bin", File)].

(** [sample_tree] before the editor left its backup in [bin/]. *)
Definition clean_tree : directory :=
  [("setup.py", File);
   ("bin", Dir [("gaia-star-radius", File);
                (".gitignore", File);
                ("tools", Dir [("plot", File)])])].

(** [sample_tree] with other kinds and contents under the same names. *)
Definition renamed_kinds_tree : directory :=
  [("README", File);
   ("bin", Dir [("gaia-star-radius", Dir []);
                ("gaia-star-radius~", Dir [("x", File)]);
                (".gitignore", Dir []);
                ("tools", File)])].

(** A name is listed when it neither begins with a dot nor has a tilde. *)
Definition listed (name : string) : bool :=
  negb (Str.startswith name ".") && negb (Str.contains "~" name).

(** * Facts about the library functions on the path of [glob.glob('bin/*')] *)

Lemma comprehension_loop_filter {A : Type} (cond : A -> bool) (xs result : list A) :
  comprehension_loop cond xs result = (result ++ filter cond xs)%list.
Proof.
  revert result.
  induction xs as [|x xs IH]; intros result; simpl.
  - now rewrite app_nil_r.
  - rewrite IH. destruct (cond x); [|reflexivity].
    now rewrite <- app_assoc.
Qed.

Lemma comprehension_filter {A : Type} (cond : A -> bool) (xs : list A) :
  comprehension cond xs = filter cond xs.
Proof. unfold comprehension. now rewrite comprehension_loop_filter. Qed.

Lemma fnmatchcase_star (name : string) : Fnmatch.fnmatchcase name "*" = true.
Proof.
  unfold Fnmatch.fnmatchcase. cbn.
  induction name as [|a n IH]; [reflexivity|].
  cbn. exact IH.
Qed.

Lemma fnmatch_filter_star (names : list string) : Fnmatch.filter names "*" = names.
Proof.
  unfold Fnmatch.filter.
  induction names as [|n names IH]; [reflexivity|].
  cbn [List.filter]. now rewrite fnmatchcase_star, IH.
Qed.

Lemma resolve_bin (cwd : directory) :
  Fs.resolve cwd "bin"
  = match Fs.lookup "bin" cwd with
    | Some x => inr x
    | None => inl FileNotFoundError
    end.
Proof. cbn. destruct (Fs.lookup "bin" cwd); reflexivity. Qed.

Lemma glob_bin_star (cwd : directory) :
  Glob.glob cwd "bin/*"
  = map (OsPath.join "bin")
      (filter (fun x => negb (Glob._ishidden x)) (Glob._listdir cwd "bin" false)).
Proof.
  unfold Glob.glob. rewrite Glob._iglob_equation_1. cbn.
  rewrite app_nil_r.
  change (filter _ (filter ?f ?l)) with (Fnmatch.filter (filter f l) "*").
  now rewrite fnmatch_filter_star.
Qed.

Lemma scandir_bin (cwd : directory) :
  Fs.scandir cwd "bin"
  = match Fs.lookup "bin" cwd with
    | Some (Dir d) => inr d
    | Some File => inl NotADirectoryError
    | None => inl FileNotFoundError
    end.
Proof.
  unfold Fs.scandir. rewrite resolve_bin.
  destruct (Fs.lookup "bin" cwd) as [[|d]|]; reflexivity.
Qed.

Lemma listdir_bin (cwd : directory) :
  Glob._listdir cwd "bin" false = map fst (bin_entries cwd).
Proof.
  unfold Glob._listdir, Glob._iterdir, bin_entries. cbn [Str.nonempty].
  rewrite scandir_bin.
  destruct (Fs.lookup "bin" cwd) as [[|d]|]; try reflexivity.
  cbn [negb orb]. f_equal.
  induction d as [|e d IH]; [reflexivity|]. cbn [List.filter]. now rewrite IH.
Qed.

Lemma ishidden_startswith (n : string) :
  Glob._ishidden n = Str.startswith n ".".
Proof.
  destruct n as [|c n]; [reflexivity|].
  cbn [Glob._ishidden Str.startswith]. now rewrite andb_true_r.
Qed.

Lemma join_bin (n : string) :
  OsPath.join "bin" n = if Str.startswith n "/" then n else "bin/" ++ n.
Proof. reflexivity. Qed.

Lemma startswith_sep_bin (n : string) : Str.startswith ("bin/" ++ n) "/" = false.
Proof. reflexivity. Qed.

Lemma join_bin_inj (n m : string) :
  OsPath.join "bin" n = OsPath.join "bin" m -> n = m.
Proof.
  rewrite !join_bin.
  destruct (Str.startswith n "/") eqn:En, (Str.startswith m "/") eqn:Em; intros H.
  - exact H.
  - subst n. now rewrite startswith_sep_bin in En.
  - subst m. now rewrite startswith_sep_bin in Em.
  - now inversion H.
Qed.

Lemma contains_tilde_join_bin (n : string) :
  Str.contains "~" (OsPath.join "bin" n) = Str.contains "~" n.
Proof. rewrite join_bin. destruct (Str.startswith n "/"); reflexivity. Qed.

Lemma valid_name_no_sep (n : string) :
  Fs.valid_name n = true -> Str.startswith n "/" = false.
Proof.
  unfold Fs.valid_name. intros H.
  apply andb_prop in H as [H _]. apply andb_prop in H as [H _].
  apply andb_prop in H as [_ H]. apply negb_true_iff in H.
  destruct n as [|c n]; [reflexivity|].
  cbn [Str.contains] in H.
  destruct (Str.startswith (String c n) "/"); [discriminate | reflexivity].
Qed.

Lemma contains_cons (sub : string) (c : ascii) (s : string) :
  Str.contains sub (String c s)
  = Str.startswith (String c s) sub || Str.contains sub s.
Proof. cbn [Str.contains]. now destruct (Str.startswith (String c s) sub). Qed.

Lemma contains_sep_middle (d n : string) : Str.contains "/" (d ++ "/" ++ n) = true.
Proof.
  induction d as [|c d IH].
  - change ("" ++ "/" ++ n) with (String "/" n). rewrite contains_cons.
    cbn [Str.startswith]. now rewrite Ascii.eqb_refl.
  - change (String c d ++ "/" ++ n) with (String c (d ++ "/" ++ n)).
    rewrite contains_cons, IH. apply orb_true_r.
Qed.

(** The scripts are the paths of the entries of [bin/] whose name does not
    begin with a dot and whose path has no tilde. *)
Lemma scripts_eq (cwd : directory) :
  scripts cwd
  = filter (fun s => negb (Str.contains "~" s))
      (map (OsPath.join "bin")
         (filter (fun x => negb (Glob._ishidden x)) (map fst (bin_entries cwd)))).
Proof.
  unfold scripts, scripts_filtered, scripts_collected.
  now rewrite comprehension_filter, glob_bin_star, listdir_bin.
Qed.

Lemma in_scripts (cwd : directory) (s : string) :
  In s (scripts cwd) <->
  exists name x, In (name, x) (bin_entries cwd)
                 /\ Glob._ishidden name = false
                 /\ s = OsPath.join "bin" name
                 /\ Str.contains "~" name = false.
Proof.
  rewrite scripts_eq, filter_In, in_map_iff. split.
  - intros [(name & <- & Hin) Ht].
    apply filter_In in Hin as [Hin Hh].
    apply in_map_iff in Hin as ([name' x] & <- & Hin).
    exists name', x. cbn [fst] in *.
    rewrite contains_tilde_join_bin in Ht.
    repeat split; [exact Hin | now apply negb_true_iff | now apply negb_true_iff].
  - intros (name & x & Hin & Hh & -> & Ht). split.
    + exists name. split; [reflexivity|].
      apply filter_In. split; [|now rewrite Hh].
      apply in_map_iff. now exists (name, x).
    + now rewrite contains_tilde_join_bin, Ht.
Qed.

Lemma join_bin_valid (n : string) :
  Fs.valid_name n = true -> OsPath.join "bin" n = "bin/" ++ n.
Proof. intros H. now rewrite join_bin, (valid_name_no_sep n H). Qed.

Lemma valid_names_in (d : directory) (n : string) (x : node) :
  Fs.valid_names d = true -> In (n, x) d -> Fs.valid_name n = true.
Proof.
  unfold Fs.valid_names. rewrite forallb_forall.
  intros H Hin. exact (H (n, x) Hin).
Qed.

Lemma valid_name_contains_sep (n : string) :
  Fs.valid_name n = true -> Str.contains "/" n = false.
Proof.
  unfold Fs.valid_name. intros H.
  apply andb_prop in H as [H _]. apply andb_prop in H as [H _].
  apply andb_prop in H as [_ H]. now apply negb_true_iff in H.
Qed.

Lemma append_cancel_l (a b c : string) : a ++ b = a ++ c -> b = c.
Proof.
  induction a as [|ch a IH]; simpl; intros H; [exact H|].
  injection H as H. now apply IH.
Qed.

(** What [glob.glob('bin/*')] collects: the joined path of every entry of
    [bin/] whose name does not begin with a dot, in the order of the
    listing. *)
Lemma glob_bin_entries (cwd : directory) :
  Glob.glob cwd "bin/*"
  = map (OsPath.join "bin")
      (filter (fun n => negb (Str.startswith n ".")) (map fst (bin_entries cwd))).
Proof.
  rewrite glob_bin_star, listdir_bin. f_equal.
  apply filter_ext. intros n. now rewrite ishidden_startswith.
Qed.

(** * The claims *)

(** C1, as amended.  For every file of [bin/] whose name does not begin
    with a dot, the path of the file is in the scripts list handed to
    [setup] if and only if the name has no tilde. *)
Theorem scripts_iff_tilde_free (cwd : directory) (name : string) :
  In (name, File) (bin_entries cwd) ->
  Str.startswith name "." = false ->
  (In (OsPath.join "bin" name) (Setuptools.scripts (setup_py cwd))
   <-> Str.contains "~" name = false).
Proof.
  intros Hin Hdot. change (Setuptools.scripts (setup_py cwd)) with (scripts cwd).
  rewrite in_scripts. split.
  - intros (name' & x & _ & _ & Heq & Ht).
    apply join_bin_inj in Heq. now subst name'.
  - intros Ht. exists name, File.
    now rewrite ishidden_startswith.
Qed.

Lemma scripts_iff_tilde_free_sample :
  In ("gaia-star-radius~", File) (bin_entries sample_tree)
  /\ Str.startswith "gaia-star-radius~" "." = false
  /\ (In (OsPath.join "bin" "gaia-star-radius~")
        (Setuptools.scripts (setup_py sample_tree))
      <-> Str.contains "~" "gaia-star-radius~" = false).
Proof.
  assert (In ("gaia-star-radius~", File) (bin_entries sample_tree)) as Hin
    by (right; left; reflexivity).
  split; [exact Hin|]. split; [reflexivity|].
  apply (scripts_iff_tilde_free sample_tree "gaia-star-radius~" Hin).
  reflexivity.
Defined.

(** C1, as the specification words it, fails on a hidden file: [.gitignore]
    is a file of [bin/], its name has no tilde, and its path is not in the
    scripts list. *)
Lemma scripts_iff_tilde_free_hidden_file :
  In (".gitignore", File) (bin_entries hidden_tree)
  /\ ~ (In (OsPath.join "bin" ".gitignore")
          (Setuptools.scripts (setup_py hidden_tree))
        <-> Str.contains "~" ".gitignore" = false).
Proof.
  split; [left; reflexivity|].
  intros [_ H]. specialize (H eq_refl). vm_compute in H. exact H.
Qed.

(** C2.  Whatever the tree, the distribution the manifest declares is named
    [gaia-star-radius] and has version [0.1.0]. *)
Theorem setup_py_name_version (cwd : directory) :
  Setuptools.name (setup_py cwd) = "gaia-star-radius"
  /\ Setuptools.version (setup_py cwd) = "0.1.0".
Proof. split; reflexivity. Qed.

(** C3.  When [bin/] is a directory without entries, [os.scandir] returns
    the empty listing, and the scripts list that [setup] receives is empty:
    the manifest runs to the end. *)
Theorem scripts_empty_bin (cwd : directory) :
  Fs.lookup "bin" cwd = Some (Dir []) ->
  Fs.scandir cwd "bin" = inr []
  /\ scripts cwd = []
  /\ Setuptools.scripts (setup_py cwd) = [].
Proof.
  intros Hbin.
  assert (scripts cwd = []) as Hs.
  { rewrite scripts_eq. unfold bin_entries. now rewrite Hbin. }
  split; [|split]; [| exact Hs | exact Hs].
  now rewrite scandir_bin, Hbin.
Qed.

Lemma scripts_empty_bin_sample :
  Fs.lookup "bin" empty_bin_tree = Some (Dir [])
  /\ Fs.scandir empty_bin_tree "bin" = inr []
  /\ scripts empty_bin_tree = []
  /\ Setuptools.scripts (setup_py empty_bin_tree) = [].
Proof.
  split; [reflexivity|].
  apply (scripts_empty_bin empty_bin_tree). reflexivity.
Defined.

(** C4.  The scripts list is made in two steps.  Line 4 binds [scripts] to
    the result of [glob.glob('bin/*')], which collects the entries of [bin/]
    that match the pattern: the path of every entry whose name does not
    begin with a dot, in the order of the listing.  Line 5 rebinds it to the
    elements of that list whose path has no tilde, in the same order, and
    this filtered list is the one [setup] receives. *)
Theorem scripts_two_steps (cwd : directory) :
  scripts_collected cwd = Glob.glob cwd "bin/*"
  /\ scripts cwd
     = filter (fun s => negb (Str.contains "~" s)) (scripts_collected cwd)
  /\ (forall s, In s (scripts cwd)
                <-> In s (Glob.glob cwd "bin/*") /\ Str.contains "~" s = false)
  /\ Setuptools.scripts (setup_py cwd) = scripts cwd
  /\ scripts_collected cwd
     = map (OsPath.join "bin")
         (filter (fun n => negb (Str.startswith n "."))
            (map fst (bin_entries cwd)))
  /\ (forall s, In s (scripts_collected cwd)
                <-> exists name x, In (name, x) (bin_entries cwd)
                                   /\ Str.startswith name "." = false
                                   /\ s = OsPath.join "bin" name)
  /\ Setuptools.scripts (setup_py cwd)
     = filter (fun s => negb (Str.contains "~" s))
         (map (OsPath.join "bin")
            (filter (fun n => negb (Str.startswith n "."))
               (map fst (bin_entries cwd)))).
Proof.
  assert (scripts cwd
          = filter (fun s => negb (Str.contains "~" s)) (scripts_collected cwd))
    as Hs by apply comprehension_filter.
  assert (scripts_collected cwd
          = map (OsPath.join "bin")
              (filter (fun n => negb (Str.startswith n "."))
                 (map fst (bin_entries cwd))))
    as Hc by apply glob_bin_entries.
  split; [reflexivity|]. split; [exact Hs|]. split; [|split; [reflexivity|]].
  - intros s. rewrite Hs, filter_In, negb_true_iff. reflexivity.
  - split; [exact Hc|]. split.
    + intros s. rewrite Hc, in_map_iff. split.
      * intros (name & <- & Hin). apply filter_In in Hin as [Hin Hdot].
        apply in_map_iff in Hin as ([name' x] & <- & Hin).
        exists name', x. cbn [fst] in *.
        repeat split; [exact Hin | now apply negb_true_iff].
      * intros (name & x & Hin & Hdot & ->). exists name.
        split; [reflexivity|]. apply filter_In. split; [|now rewrite Hdot].
        apply in_map_iff. now exists (name, x).
    + change (Setuptools.scripts (setup_py cwd)) with (scripts cwd).
      now rewrite Hs, Hc.
Qed.

(** C6.  An entry of [bin/] whose name begins with a dot is never in the
    scripts list, with or without a tilde in its name: [glob] drops hidden
    names before it matches them against [*]. *)
Theorem hidden_entries_excluded (cwd : directory) (name : string) (x : node) :
  In (name, x) (bin_entries cwd) ->
  Str.startswith name "." = true ->
  ~ In (OsPath.join "bin" name) (scripts cwd).
Proof.
  intros _ Hdot Hin.
  apply in_scripts in Hin as (name' & x' & _ & Hh & Heq & _).
  apply join_bin_inj in Heq. subst name'.
  rewrite ishidden_startswith in Hh. congruence.
Qed.

Lemma hidden_entries_excluded_sample :
  In (".gitignore", File) (bin_entries sample_tree)
  /\ Str.startswith ".gitignore" "." = true
  /\ Str.contains "~" ".gitignore" = false
  /\ ~ In (OsPath.join "bin" ".gitignore") (scripts sample_tree).
Proof.
  assert (In (".gitignore", File) (bin_entries sample_tree)) as Hin
    by (right; right; left; reflexivity).
  split; [exact Hin|]. split; [reflexivity|]. split; [reflexivity|].
  apply (hidden_entries_excluded sample_tree ".gitignore" File Hin).
  reflexivity.
Defined.

(** C7.  When the current directory has no [bin] at all, [os.scandir]
    raises [FileNotFoundError], [glob] catches it and returns the empty
    list, and the scripts list that [setup] receives is empty: the manifest
    runs to the end. *)
Theorem scripts_missing_bin (cwd : directory) :
  Fs.lookup "bin" cwd = None ->
  Fs.scandir cwd "bin" = inl FileNotFoundError
  /\ Glob.glob cwd "bin/*" = []
  /\ scripts cwd = []
  /\ Setuptools.scripts (setup_py cwd) = [].
Proof.
  intros Hbin.
  assert (bin_entries cwd = []) as He by (unfold bin_entries; now rewrite Hbin).
  assert (scripts cwd = []) as Hs by (now rewrite scripts_eq, He).
  repeat split; try exact Hs.
  - now rewrite scandir_bin, Hbin.
  - now rewrite glob_bin_star, listdir_bin, He.
Qed.

Lemma scripts_missing_bin_sample :
  Fs.lookup "bin" no_bin_tree = None
  /\ Fs.scandir no_bin_tree "bin" = inl FileNotFoundError
  /\ Glob.glob no_bin_tree "bin/*" = []
  /\ scripts no_bin_tree = []
  /\ Setuptools.scripts (setup_py no_bin_tree) = [].
Proof.
  split; [reflexivity|].
  apply (scripts_missing_bin no_bin_tree). reflexivity.
Defined.

(** C8.  When the names in [bin/] are file names, every element of the
    scripts list is [bin/] followed by the name of a direct child entry of
    [bin/], and no path of an entry inside a subdirectory of [bin/] is in the
    list. *)
Theorem scripts_direct_children (cwd : directory) :
  Fs.valid_names (bin_entries cwd) = true ->
  (forall s, In s (scripts cwd) ->
     exists name x, In (name, x) (bin_entries cwd) /\ s = "bin/" ++ name)
  /\ (forall d sub name x,
        In (d, Dir sub) (bin_entries cwd) -> In (name, x) sub ->
        ~ In ("bin/" ++ d ++ "/" ++ name) (scripts cwd)).
Proof.
  intros Hvalid.
  assert (forall s, In s (scripts cwd) ->
            exists name x, In (name, x) (bin_entries cwd)
                           /\ Fs.valid_name name = true
                           /\ s = "bin/" ++ name) as Hform.
  { intros s Hin.
    apply in_scripts in Hin as (name & x & Hin & _ & -> & _).
    pose proof (valid_names_in _ _ _ Hvalid Hin) as Hv.
    exists name, x. now rewrite (join_bin_valid name Hv). }
  split.
  - intros s Hin. destruct (Hform s Hin) as (name & x & H1 & _ & H2).
    now exists name, x.
  - intros d sub name x _ _ Hin.
    destruct (Hform _ Hin) as (name' & x' & _ & Hv & Heq).
    apply append_cancel_l in Heq.
    apply valid_name_contains_sep in Hv.
    rewrite <- Heq, contains_sep_middle in Hv. discriminate.
Qed.

Lemma scripts_direct_children_sample :
  Fs.valid_names (bin_entries sample_tree) = true
  /\ (forall s, In s (scripts sample_tree) ->
        exists name x, In (name, x) (bin_entries sample_tree) /\ s = "bin/" ++ name)
  /\ (forall d sub name x,
        In (d, Dir sub) (bin_entries sample_tree) -> In (name, x) sub ->
        ~ In ("bin/" ++ d ++ "/" ++ name) (scripts sample_tree)).
Proof.
  split; [reflexivity|].
  apply (scripts_direct_children sample_tree). reflexivity.
Defined.

(** * Further properties of the manifest *)

Lemma filter_map_swap {A B : Type} (f : B -> bool) (g : A -> B) (l : list A) :
  filter f (map g l) = map g (filter (fun x => f (g x)) l).
Proof.
  induction l as [|a l IH]; [reflexivity|].
  cbn [map filter]. rewrite IH. now destruct (f (g a)).
Qed.

Lemma filter_twice {A : Type} (f g : A -> bool) (l : list A) :
  filter f (filter g l) = filter (fun x => g x && f x) l.
Proof.
  induction l as [|a l IH]; [reflexivity|].
  cbn [filter]. destruct (g a); cbn [filter andb]; rewrite IH; reflexivity.
Qed.

Lemma filter_length_bound {A : Type} (f : A -> bool) (l : list A) :
  length (filter f l) <= length l.
Proof.
  induction l as [|a l IH]; [apply le_n|].
  cbn [filter]. destruct (f a); cbn [length]; lia.
Qed.

Lemma NoDup_map_injective {A B : Type} (f : A -> B) (l : list A) :
  (forall a b, f a = f b -> a = b) -> NoDup l -> NoDup (map f l).
Proof.
  intros Hinj Hnd. induction Hnd as [|a l Hnotin Hnd IH]; [constructor|].
  cbn [map]. constructor; [|exact IH].
  intros Hin. apply in_map_iff in Hin as (b & Heq & Hin).
  apply Hinj in Heq. now subst b.
Qed.

(** The scripts, by entry name: the joined paths of the listed names, in the
    order of the directory listing. *)
Lemma scripts_eq_listed (cwd : directory) :
  scripts cwd
  = map (OsPath.join "bin") (filter listed (map fst (bin_entries cwd))).
Proof.
  rewrite scripts_eq, filter_map_swap, filter_twice. f_equal.
  apply filter_ext. intros n. unfold listed.
  now rewrite contains_tilde_join_bin, ishidden_startswith.
Qed.

Lemma cut_last_sep_no_sep (n : string) :
  Str.contains "/" n = false -> OsPath.cut_last_sep n = ("", n).
Proof.
  induction n as [|c n IH]; [reflexivity|].
  rewrite contains_cons. intros H. apply orb_false_iff in H as [Hc Hn].
  cbn [OsPath.cut_last_sep]. rewrite (IH Hn).
  cbn [Str.startswith] in Hc. rewrite andb_true_r in Hc.
  unfold OsPath.sep. now rewrite Hc.
Qed.

Lemma split_bin_name (n : string) :
  Str.contains "/" n = false -> OsPath.split ("bin/" ++ n) = ("bin", n).
Proof.
  intros H. unfold OsPath.split.
  change ("bin/" ++ n) with (String "b" (String "i" (String "n" (String "/" n)))).
  cbn [OsPath.cut_last_sep]. rewrite (cut_last_sep_no_sep n H). reflexivity.
Qed.

(** X1.  The list is not restricted to regular files: a subdirectory of
    [bin/] whose name neither begins with a dot nor has a tilde is handed to
    [setup] as a script. *)
Theorem directories_listed (cwd : directory) (name : string) (sub : directory) :
  In (name, Dir sub) (bin_entries cwd) ->
  Str.startswith name "." = false ->
  Str.contains "~" name = false ->
  In (OsPath.join "bin" name) (Setuptools.scripts (setup_py cwd)).
Proof.
  intros Hin Hdot Ht. change (Setuptools.scripts (setup_py cwd)) with (scripts cwd).
  apply in_scripts. exists name, (Dir sub).
  now rewrite ishidden_startswith.
Qed.

Lemma directories_listed_sample :
  In ("tools", Dir [("plot", File)]) (bin_entries sample_tree)
  /\ Str.startswith "tools" "." = false
  /\ Str.contains "~" "tools" = false
  /\ In (OsPath.join "bin" "tools") (Setuptools.scripts (setup_py sample_tree)).
Proof.
  assert (In ("tools", Dir [("plot", File)]) (bin_entries sample_tree)) as Hin
    by (right; right; right; left; reflexivity).
  split; [exact Hin|]. split; [reflexivity|]. split; [reflexivity|].
  apply (directories_listed sample_tree "tools" [("plot", File)] Hin);
    reflexivity.
Defined.

(** X2.  When [bin] is a regular file, [os.scandir] raises
    [NotADirectoryError], [glob] catches it, and [setup] receives the empty
    list. *)
Theorem scripts_bin_not_directory (cwd : directory) :
  Fs.lookup "bin" cwd = Some File ->
  Fs.scandir cwd "bin" = inl NotADirectoryError
  /\ Glob.glob cwd "bin/*" = []
  /\ Setuptools.scripts (setup_py cwd) = [].
Proof.
  intros Hbin.
  assert (bin_entries cwd = []) as He by (unfold bin_entries; now rewrite Hbin).
  split; [now rewrite scandir_bin, Hbin|]. split.
  - now rewrite glob_bin_star, listdir_bin, He.
  - change (Setuptools.scripts (setup_py cwd)) with (scripts cwd).
    now rewrite scripts_eq, He.
Qed.

Lemma scripts_bin_not_directory_sample :
  Fs.lookup "bin" bin_file_tree = Some File
  /\ Fs.scandir bin_file_tree "bin" = inl NotADirectoryError
  /\ Glob.glob bin_file_tree "bin/*" = []
  /\ Setuptools.scripts (setup_py bin_file_tree) = [].
Proof.
  split; [reflexivity|].
  apply (scripts_bin_not_directory bin_file_tree). reflexivity.
Defined.

(** X3.  When the names in [bin/] are file names, the scripts list is
    [bin/] followed by each listed name, in the order and with the
    multiplicity of the directory listing. *)
Theorem scripts_in_listing_order (cwd : directory) :
  Fs.valid_names (bin_entries cwd) = true ->
  scripts cwd
  = map (String.append "bin/") (filter listed (map fst (bin_entries cwd))).
Proof.
  intros Hvalid. rewrite scripts_eq_listed.
  apply map_ext_in. intros n Hin.
  apply filter_In in Hin as [Hin _].
  apply in_map_iff in Hin as ([n' x] & <- & Hin).
  apply join_bin_valid. exact (valid_names_in _ _ _ Hvalid Hin).
Qed.

Lemma scripts_in_listing_order_sample :
  Fs.valid_names (bin_entries sample_tree) = true
  /\ scripts sample_tree
     = map (String.append "bin/")
         (filter listed (map fst (bin_entries sample_tree))).
Proof.
  split; [reflexivity|].
  apply (scripts_in_listing_order sample_tree). reflexivity.
Defined.

(** X4.  When the names in [bin/] are distinct, no path occurs twice in the
    scripts list. *)
Theorem scripts_nodup (cwd : directory) :
  NoDup (map fst (bin_entries cwd)) -> NoDup (scripts cwd).
Proof.
  intros Hnd. rewrite scripts_eq_listed.
  apply NoDup_map_injective; [exact join_bin_inj|].
  now apply NoDup_filter.
Qed.

Lemma scripts_nodup_sample :
  NoDup (map fst (bin_entries sample_tree)) /\ NoDup (scripts sample_tree).
Proof.
  assert (NoDup (map fst (bin_entries sample_tree))) as Hnd.
  { repeat constructor; cbn; intuition discriminate. }
  split; [exact Hnd|]. exact (scripts_nodup sample_tree Hnd).
Defined.

(** X5.  The scripts list has one element for each listed name of [bin/]:
    never more elements than [bin/] has entries. *)
Theorem scripts_length (cwd : directory) :
  length (scripts cwd) = length (filter listed (map fst (bin_entries cwd)))
  /\ length (scripts cwd) <= length (bin_entries cwd).
Proof.
  rewrite scripts_eq_listed, length_map. split; [reflexivity|].
  rewrite <- (length_map fst (bin_entries cwd)). apply filter_length_bound.
Qed.

(** X6.  The scripts list depends on the names in [bin/] only: not on the
    kind or the contents of the entries, nor on anything outside [bin/]. *)
Theorem scripts_depend_on_names_only (cwd cwd' : directory) :
  map fst (bin_entries cwd) = map fst (bin_entries cwd') ->
  scripts cwd = scripts cwd'.
Proof. intros H. now rewrite !scripts_eq_listed, H. Qed.

Lemma scripts_depend_on_names_only_sample :
  map fst (bin_entries sample_tree) = map fst (bin_entries renamed_kinds_tree)
  /\ scripts sample_tree = scripts renamed_kinds_tree.
Proof.
  split; [reflexivity|].
  apply (scripts_depend_on_names_only sample_tree renamed_kinds_tree).
  reflexivity.
Defined.

(** X7.  When the names in [bin/] are file names, [os.path.split] takes
    every script back to [bin] and the name of its entry: the base name of a
    script is a listed name of [bin/]. *)
Theorem scripts_split (cwd : directory) (s : string) :
  Fs.valid_names (bin_entries cwd) = true ->
  In s (scripts cwd) ->
  exists name x,
    In (name, x) (bin_entries cwd)
    /\ listed name = true
    /\ OsPath.split s = ("bin", name).
Proof.
  intros Hvalid Hin. rewrite scripts_eq_listed in Hin.
  apply in_map_iff in Hin as (n & <- & Hin).
  apply filter_In in Hin as [Hin Hl].
  apply in_map_iff in Hin as ([n' x] & Heq & Hin). cbn [fst] in Heq. subst n'.
  pose proof (valid_names_in _ _ _ Hvalid Hin) as Hv.
  exists n, x. split; [exact Hin|]. split; [exact Hl|].
  rewrite (join_bin_valid n Hv).
  apply split_bin_name. now apply valid_name_contains_sep.
Qed.

Lemma scripts_split_sample :
  Fs.valid_names (bin_entries sample_tree) = true
  /\ In "bin/tools" (scripts sample_tree)
  /\ exists name x,
       In (name, x) (bin_entries sample_tree)
       /\ listed name = true
       /\ OsPath.split "bin/tools" = ("bin", name).
Proof.
  assert (In "bin/tools" (scripts sample_tree)) as Hin
    by (right; left; reflexivity).
  split; [reflexivity|]. split; [exact Hin|].
  exact (scripts_split sample_tree "bin/tools" eq_refl Hin).
Defined.

(** X8.  Line 5 is idempotent and distributes over concatenation: filtering
    a second time changes nothing, and a list filters part by part. *)
Theorem scripts_filtered_idempotent (l l' : list string) :
  scripts_filtered (scripts_filtered l) = scripts_filtered l
  /\ scripts_filtered (l ++ l')%list
     = (scripts_filtered l ++ scripts_filtered l')%list.
Proof.
  unfold scripts_filtered. rewrite !comprehension_filter. split.
  - rewrite filter_twice. apply filter_ext. intros s.
    now destruct (Str.contains "~" s).
  - apply filter_app.
Qed.

(** X9.  An entry whose name begins with a dot or has a tilde does not
    change the list: with or without it in [bin/], [setup] receives the same
    scripts. *)
Theorem unlisted_entry_ignored (cwd cwd' : directory) (before after : directory)
  (name : string) (x : node) :
  bin_entries cwd = (before ++ after)%list ->
  bin_entries cwd' = (before ++ (name, x) :: after)%list ->
  listed name = false ->
  Setuptools.scripts (setup_py cwd') = Setuptools.scripts (setup_py cwd).
Proof.
  intros H H' Hl.
  change (scripts cwd' = scripts cwd).
  rewrite !scripts_eq_listed, H, H'.
  rewrite !map_app, !filter_app. cbn [map filter fst]. now rewrite Hl.
Qed.

Lemma unlisted_entry_ignored_sample :
  bin_entries clean_tree
  = ([("gaia-star-radius", File)]
     ++ [(".gitignore", File); ("tools", Dir [("plot", File)])])%list
  /\ bin_entries sample_tree
     = ([("gaia-star-radius", File)]
        ++ ("gaia-star-radius~", File)
           :: [(".gitignore", File); ("tools", Dir [("plot", File)])])%list
  /\ listed "gaia-star-radius~" = false
  /\ Setuptools.scripts (setup_py sample_tree)
     = Setuptools.scripts (setup_py clean_tree).
Proof.
  split; [reflexivity|]. split; [reflexivity|]. split; [reflexivity|].
  apply (unlisted_entry_ignored clean_tree sample_tree
           [("gaia-star-radius", File)]
           [(".gitignore", File); ("tools", Dir [("plot", File)])]
           "gaia-star-radius~" File); reflexivity.
Defined.

(** X10.  [setup] receives the empty list exactly when every name in [bin/]
    begins with a dot or has a tilde (as when [bin/] is empty, missing, or
    not a directory). *)
Theorem scripts_empty_iff (cwd : directory) :
  Setuptools.scripts (setup_py cwd) = []
  <-> (forall name x, In (name, x) (bin_entries cwd) -> listed name = false).
Proof.
  change (Setuptools.scripts (setup_py cwd)) with (scripts cwd).
  rewrite scripts_eq_listed. split.
  - intros Hnil name x Hin.
    destruct (listed name) eqn:Hl; [exfalso | reflexivity].
    assert (In (OsPath.join "bin" name)
              (map (OsPath.join "bin")
                 (filter listed (map fst (bin_entries cwd))))) as Hcontra.
    { apply in_map, filter_In. split; [|exact Hl].
      apply in_map_iff. now exists (name, x). }
    rewrite Hnil in Hcontra. exact Hcontra.
  - intros Hall.
    destruct (filter listed (map fst (bin_entries cwd))) as [|n l] eqn:E;
      [reflexivity | exfalso].
    assert (In n (filter listed (map fst (bin_entries cwd)))) as Hin
      by (rewrite E; now left).
    apply filter_In in Hin as [Hin Hl].
    apply in_map_iff in Hin as ([n' x] & Heq & Hin). cbn [fst] in Heq. subst n'.
    rewrite (Hall n x Hin) in Hl. discriminate.
Qed.
